(** * Career Match Evaluator: a shallow embedding of [app.py]

    The program is a Streamlit form around two small components:
    - the persistence store ([save_user_data], [load_user_data]), which keeps
      the last resume, criteria and API key in [career_match_data.json];
    - the evaluation client ([call_openrouter]), which posts one
      chat-completion request and normalises whatever comes back into a
      result dictionary [{ok, content, raw, error}].
    [main] validates the form, calls the client, saves the inputs and renders
    the result.

    Python values are embedded as the inductive [value]; a Python [str] is the
    list of its code points; a Python [dict] with string keys is a finite map.
    An expression that may raise is an [option]: [None] stands for "an
    exception was raised", and a [try ... except Exception] is a [match] on
    it.  What the program only observes from its environment (the JSON text
    codec of the standard library, [textwrap.dedent], the outcome of
    [requests.post], the values the widgets return) is a Section variable or an
    argument; the module [Sample] gives one such environment, with a JSON
    codec for the records of the store, to run the program in. *)

From Stdlib Require Import ZArith NArith List String Ascii DecimalString SpecFloat Lia.
From stdpp Require Import base option list gmap numbers.

Set Warnings "-register-all".

(** ** Python strings *)

Module Str.

(** A [str] is a sequence of Unicode code points. *)
Abbreviation str := (list N).

(** A literal of the source, written in ASCII. *)
Definition lit (s : string) : str := N_of_ascii <$> list_ascii_of_string s.

(** [c.isspace()] for a single code point: the white-space table of
    CPython's [str]. *)
Definition isspace (c : N) : bool :=
  (((9 <=? c) && (c <=? 13)) || ((28 <=? c) && (c <=? 32))
   || (c =? 133) || (c =? 160) || (c =? 5760)
   || ((8192 <=? c) && (c <=? 8202))
   || (c =? 8232) || (c =? 8233) || (c =? 8239) || (c =? 8287)
   || (c =? 12288))%N.

(** [s.lstrip()], [s.rstrip()], [s.strip()] with no argument. *)
Fixpoint lstrip (s : str) : str :=
  match s with
  | c :: s' => if isspace c then lstrip s' else s
  | [] => []
  end.

Definition rstrip (s : str) : str := rev (lstrip (rev s)).

Definition strip (s : str) : str := rstrip (lstrip s).

(** Truth value of a string: [bool(s)]. *)
Definition nonempty (s : str) : bool :=
  match s with [] => false | _ :: _ => true end.

(** [str(n)] for an [int], as an f-string formats it. *)
Definition of_int (z : Z) : str := lit (NilZero.string_of_int (Z.to_int z)).

End Str.

Export Str.

(** ** Python values (the JSON-shaped ones) *)

Inductive value :=
  | VNone
  | VBool (b : bool)
  | VInt (z : Z)
  | VFloat (f : spec_float)
  | VStr (s : str)
  | VList (l : list value)
  | VDict (d : gmap str value).

(** [bool(v)]: what [if not v] tests. *)
Definition truthy (v : value) : bool :=
  match v with
  | VNone => false
  | VBool b => b
  | VInt z => negb (z =? 0)%Z
  | VFloat f => match f with S754_zero _ => false | _ => true end
  | VStr s => nonempty s
  | VList l => match l with [] => false | _ :: _ => true end
  | VDict d => match map_to_list d with [] => false | _ :: _ => true end
  end.

(** [seq[i]] on a sequence of length [n]: the position, or [None] for
    [IndexError]. *)
Definition index_of (n : nat) (i : Z) : option nat :=
  let j := (if i <? 0 then i + Z.of_nat n else i)%Z in
  if ((0 <=? j) && (j <? Z.of_nat n))%Z then Some (Z.to_nat j) else None.

(** [v[k]] for a string key [k]: [KeyError] on a dict without the key,
    [TypeError] on everything else. *)
Definition getitem_str (v : value) (k : str) : option value :=
  match v with
  | VDict d => d !! k
  | _ => None
  end.

(** [v[i]] for an integer [i]: a list element, a one-character string,
    [IndexError] out of range, [KeyError] on a dict (its keys are strings),
    [TypeError] on everything else. *)
Definition getitem_int (v : value) (i : Z) : option value :=
  match v with
  | VList l => n ← index_of (length l) i; l !! n
  | VStr s => n ← index_of (length s) i; c ← s !! n; Some (VStr [c])
  | _ => None
  end.

(** [v.get(k, dflt)]: only a dict has the method ([AttributeError]). *)
Definition dict_get (v : value) (k : str) (dflt : value) : option value :=
  match v with
  | VDict d => Some (default dflt (d !! k))
  | _ => None
  end.

(** ** The evaluation client *)

Definition DEFAULT_MODEL : str := lit "openrouter/sonoma-dusk-alpha".
Definition OPENROUTER_API_URL : str := lit "https://openrouter.ai/api/v1/chat/completions".

(** What [requests.post] is called with. *)
Record request := {
  url : str;
  headers : gmap str str;
  data : str;
  timeout : Z;
}.

(** A [requests.Response], as far as the program looks at it.  [json] is the
    outcome of [response.json()]: [None] when it raises. *)
Record response := {
  status_code : Z;
  text : str;
  json : option value;
}.

(** [requests.post] returns a response or raises a [RequestException] [exc],
    of which the program uses [str(exc)]. *)
Inductive post_outcome :=
  | Raised (exc : str)
  | Returned (r : response).

(** The result dictionary [{"ok", "content", "raw", "error"}]. *)
Record result := {
  ok : bool;
  content : value;
  raw : value;
  error : option str;
}.

(** [data["choices"][0]["message"]["content"]]; [None] when any step raises. *)
Definition extract_content (body : value) : option value :=
  choices ← getitem_str body (lit "choices");
  choice ← getitem_int choices 0;
  message ← getitem_str choice (lit "message");
  getitem_str message (lit "content").

(** The two triple-quoted prompt templates, line by line. *)
Definition quote : str := [34%N].
Definition newline : str := [10%N].

Fixpoint join_lines (ls : list str) : str :=
  match ls with
  | [] => []
  | [l] => l
  | l :: ls' => l ++ newline ++ join_lines ls'
  end.

Definition system_template : str :=
  join_lines [
    [];
    lit "        You are a career coach and resume expert. Evaluate how well a my resume aligns with a specific job description, incorporating any additional criteria I care about. Provide:";
    lit "        - A clear " ++ quote ++ lit "Go apply" ++ quote ++ lit " or " ++ quote
      ++ lit "Don't bother" ++ quote
      ++ lit " verdict and confidence level of your certainity (0-100%).";
    lit "        - Top strengths that align well.";
    lit "        - Key gaps or risks.";
    lit "        - Actionable suggestions to improve the resume and application.";
    lit "        - Tailored advice for interview preparation.";
    lit "        Keep the response concise, structured, and directly useful. Use bullet points where appropriate.";
    lit "        Use markdown format for the response.";
    lit "        " ].

Definition user_template (resume_text job_description misc_criteria : str) : str :=
  join_lines [
    [];
    lit "        <MyResume>";
    lit "        " ++ resume_text ++ lit "   ";
    lit "        </MyResume>";
    [];
    lit "        <JobDescription>";
    lit "        " ++ job_description;
    lit "        </JobDescription>";
    [];
    lit "        <MiscCriteria>";
    lit "        " ++ misc_criteria;
    lit "        </MiscCriteria>";
    lit "        " ].

(** ** The persistence store: data *)

Definition DATA_FILE : str := lit "career_match_data.json".

(** The files of the working directory by name, and whether opening
    [DATA_FILE] for writing, respectively for reading, succeeds. *)
Record filesystem := {
  files : gmap str str;
  can_write : bool;
  can_read : bool;
}.

(** The dictionary [save_user_data] writes. *)
Definition user_data_dict (resume_text misc_criteria api_key : str) : value :=
  VDict (<[lit "resume_text" := VStr resume_text]>
        (<[lit "misc_criteria" := VStr misc_criteria]>
        (<[lit "api_key" := VStr api_key]> ∅))).

(** The dictionary [load_user_data] returns: always these three keys. *)
Record user_data := {
  resume_text : value;
  misc_criteria : value;
  api_key : value;
}.

(** ** The form: data *)

(** What the widgets return in one run of the script. *)
Record widgets := {
  w_model : str;
  w_temperature : spec_float;
  w_api_key : str;
  w_resume_text : str;
  w_job_description : str;
  w_misc_criteria : str;
  w_submit : bool;
}.

(** What a run does that can be seen from outside, in order. *)
Inductive event :=
  | st_title (s : str)
  | st_caption (s : str)
  | st_subheader (s : str)
  | st_warning (s : str)
  | st_error (s : str)
  | st_spinner (s : str)
  | st_markdown (v : value)
  | st_expander (s : str)
  | st_code (s : str)
  | requests_post_call (r : request)
  | save_user_data_call (resume_text misc_criteria api_key : str).

Record world := {
  fs : filesystem;
  session_state : gmap str value;
  log : list event;
}.

Definition emit (e : event) (w : world) : world :=
  {| fs := fs w; session_state := session_state w; log := log w ++ [e] |}.

(** [if key not in st.session_state: st.session_state[key] = v] *)
Definition seed (key : str) (v : value) (w : world) : world :=
  match session_state w !! key with
  | Some _ => w
  | None =>
      {| fs := fs w; session_state := <[key := v]> (session_state w); log := log w |}
  end.

Definition with_fs (f : filesystem -> filesystem) (w : world) : world :=
  {| fs := f (fs w); session_state := session_state w; log := log w |}.

Section Program.

(** The environment. *)

(** [json.dumps(v, indent=indent)]; [json.dump] writes the same text. *)
Variable json_dumps : option nat -> value -> str.
(** [json.load] on a file with this text: [None] when it raises. *)
Variable json_loads : str -> option value.
Variable textwrap_dedent : str -> str.
(** The network and the server behind [requests.post]. *)
Variable requests_post : request -> post_outcome.

(** *** Persistence store *)

(** A failure of the write is a failure to open the file: the file is
    then left as it was. *)
Definition save_user_data (resume_text misc_criteria api_key : str)
    (d : filesystem) : filesystem :=
  let data := user_data_dict resume_text misc_criteria api_key in
  (* try: with open(DATA_FILE, "w") as f: json.dump(data, f, indent=2) *)
  if can_write d then
    {| files := <[DATA_FILE := json_dumps (Some 2%nat) data]> (files d);
       can_write := can_write d; can_read := can_read d |}
  else
    (* except Exception: pass *)
    d.

Definition no_user_data : user_data :=
  {| resume_text := VStr []; misc_criteria := VStr []; api_key := VStr [] |}.

(** The [try] block of [load_user_data]: [None] when it raises,
    [Some None] when it falls through, [Some (Some r)] when it returns [r]. *)
Definition load_user_data_try (d : filesystem) : option (option user_data) :=
  match files d !! DATA_FILE with
  | Some contents =>
      (* os.path.exists(DATA_FILE) *)
      f ← (if can_read d then Some contents else None);
      data ← json_loads f;
      r ← dict_get data (lit "resume_text") (VStr []);
      m ← dict_get data (lit "misc_criteria") (VStr []);
      k ← dict_get data (lit "api_key") (VStr []);
      Some (Some {| resume_text := r; misc_criteria := m; api_key := k |})
  | None => Some None
  end.

Definition load_user_data (d : filesystem) : user_data :=
  match load_user_data_try d with
  | Some (Some r) => r
  | Some None => no_user_data
  | None => (* except Exception: pass *) no_user_data
  end.

(** *** Evaluation client *)

(** The request [call_openrouter] posts: [headers], [payload] and the two
    messages as the source builds them. *)
Definition openrouter_request (api_key resume_text job_description misc_criteria
    model : str) (temperature : spec_float) (request_timeout_seconds : Z) : request :=
  let system_message := strip (textwrap_dedent system_template) in
  let user_message :=
    strip (textwrap_dedent (user_template resume_text job_description misc_criteria)) in
  let headers : gmap str str :=
    <[lit "Authorization" := lit "Bearer " ++ api_key]>
    (<[lit "Content-Type" := lit "application/json"]> ∅) in
  let message (role content : str) : value :=
    VDict (<[lit "role" := VStr role]> (<[lit "content" := VStr content]> ∅)) in
  let payload :=
    VDict (<[lit "model" := VStr model]>
          (<[lit "temperature" := VFloat temperature]>
          (<[lit "messages" :=
               VList [message (lit "system") system_message;
                      message (lit "user") user_message]]> ∅))) in
  {| url := OPENROUTER_API_URL; headers := headers;
     data := json_dumps None payload; timeout := request_timeout_seconds |}.

Definition call_openrouter (api_key resume_text job_description misc_criteria
    model : str) (temperature : spec_float) (request_timeout_seconds : Z) : result :=
  match requests_post (openrouter_request api_key resume_text job_description
                         misc_criteria model temperature request_timeout_seconds) with
  | Raised exc =>
      {| ok := false; content := VStr []; raw := VDict ∅;
         error := Some (lit "Network error: " ++ exc) |}
  | Returned response =>
      if negb (status_code response =? 200)%Z then
        {| ok := false; content := VStr [];
           raw := VDict (<[lit "status_code" := VInt (status_code response)]>
                        (<[lit "text" := VStr (text response)]> ∅));
           error := Some (lit "API error " ++ of_int (status_code response)
                            ++ lit ": " ++ text response) |}
      else
        match json response with
        | None =>
            {| ok := false; content := VStr [];
               raw := VDict (<[lit "text" := VStr (text response)]> ∅);
               error := Some (lit "Failed to parse API response as JSON.") |}
        | Some data =>
            let content := default VNone (extract_content data) in
            if negb (truthy content) then
              {| ok := false; content := VStr []; raw := data;
                 error := Some (lit "Empty response from model.") |}
            else
              {| ok := true; content := content; raw := data; error := None |}
        end
  end.

(** *** The form *)

(** One run of the script, with [i] what the widgets return in it.  The
    calls that only lay the page out ([set_page_config], [sidebar],
    [columns], the widgets themselves) leave no event.  The network call and
    the save are logged where [main] makes them. *)
Definition main (i : widgets) (w : world) : world :=
  let w := emit (st_title (lit "Career Match Evaluator")) w in
  let w := emit (st_caption
    (lit "Analyze how well a role matches your resume and preferences.")) w in
  let persisted_data := load_user_data (fs w) in
  let w := seed (lit "resume_text") (resume_text persisted_data) w in
  let w := seed (lit "misc_criteria") (misc_criteria persisted_data) w in
  let w := seed (lit "api_key") (api_key persisted_data) w in
  let w := emit (st_subheader (lit "Settings")) w in
  let model := w_model i in
  let temperature := w_temperature i in
  let api_key := w_api_key i in
  let w :=
    if negb (nonempty api_key) then
      emit (st_warning
        (lit "Please enter your OpenRouter API key to use the application.")) w
    else w in
  let resume_text := w_resume_text i in
  let job_description := w_job_description i in
  let misc_criteria := w_misc_criteria i in
  if w_submit i then
    if negb (nonempty (strip resume_text)) then
      emit (st_error (lit "Please paste your resume.")) w
    else if negb (nonempty (strip job_description)) then
      emit (st_error (lit "Please paste the job description.")) w
    else if negb (nonempty api_key) then
      emit (st_error (lit "Please enter your OpenRouter API key in the sidebar.")) w
    else
      let w := emit (st_spinner (lit "Analyzing match with the LLM...")) w in
      let model' := if nonempty (strip model) then strip model else DEFAULT_MODEL in
      let w := emit (requests_post_call
        (openrouter_request api_key resume_text job_description misc_criteria
           model' temperature 60)) w in
      let result :=
        call_openrouter api_key resume_text job_description misc_criteria
          model' temperature 60 in
      let w :=
        if nonempty (strip resume_text) || nonempty (strip misc_criteria)
           || nonempty (strip api_key) then
          with_fs (save_user_data resume_text misc_criteria api_key)
            (emit (save_user_data_call resume_text misc_criteria api_key) w)
        else w in
      if negb (ok result) then
        let message :=
          match error result with
          | Some e => if nonempty e then e else lit "Unknown error"
          | None => lit "Unknown error"
          end in
        let w := emit (st_error message) w in
        let w := emit (st_expander (lit "Show raw response")) w in
        emit (st_code (json_dumps (Some 2%nat) (raw result))) w
      else
        let w := emit (st_subheader (lit "Results")) w in
        let w := emit (st_markdown (content result)) w in
        let w := emit (st_expander (lit "Show raw response")) w in
        emit (st_code (json_dumps (Some 2%nat) (raw result))) w
  else w.

End Program.

(** * Vocabulary of the specification *)

(** The JSON value [v] sits at [choices[0].message.content] of [body]. *)
Definition has_content (body v : value) : Prop :=
  ∃ (d : gmap str value) (rest : list value) (choice message : gmap str value),
    body = VDict d
    ∧ d !! lit "choices" = Some (VList (VDict choice :: rest))
    ∧ choice !! lit "message" = Some (VDict message)
    ∧ message !! lit "content" = Some v.

(** The events of a list that are network calls, saves, error messages. *)
Definition posts (evs : list event) : list request :=
  omap (λ e, match e with requests_post_call r => Some r | _ => None end) evs.

Definition saves (evs : list event) : list (str * str * str) :=
  omap (λ e, match e with save_user_data_call r m k => Some (r, m, k) | _ => None end) evs.

Definition errors (evs : list event) : list str :=
  omap (λ e, match e with st_error s => Some s | _ => None end) evs.

(** What one run of [main] adds to the log. *)
Definition run_events json_dumps json_loads textwrap_dedent requests_post
    (i : widgets) (w : world) : list event :=
  drop (length (log w))
    (log (main json_dumps json_loads textwrap_dedent requests_post i w)).

(** What every run shows before it looks at the button. *)
Definition preamble (i : widgets) : list event :=
  [st_title (lit "Career Match Evaluator");
   st_caption (lit "Analyze how well a role matches your resume and preferences.");
   st_subheader (lit "Settings")]
  ++ (if nonempty (w_api_key i) then []
      else [st_warning
              (lit "Please enter your OpenRouter API key to use the application.")]).




(** * A sample environment

    A JSON text codec for the fragment the store writes (an object whose
    values are strings), written after [json.dumps] with its default
    [ensure_ascii] and [json.loads]; a server that always gives the same
    answer.  They serve to run the program on concrete inputs. *)

Module Sample.

Definition hexdigit (n : N) : N := (if n <? 10 then 48 + n else 87 + n)%N.

(** [\uXXXX] *)
Definition u_escape (n : N) : str :=
  [92; 117; hexdigit ((n / 4096) `mod` 16); hexdigit ((n / 256) `mod` 16);
   hexdigit ((n / 16) `mod` 16); hexdigit (n `mod` 16)]%N.

Definition encode_char (c : N) : str :=
  (if c =? 34 then [92; 34]
   else if c =? 92 then [92; 92]
   else if c =? 10 then [92; 110]
   else if c =? 13 then [92; 114]
   else if c =? 9 then [92; 116]
   else if c =? 8 then [92; 98]
   else if c =? 12 then [92; 102]
   else if (32 <=? c) && (c <=? 126) then [c]
   else if c <? 65536 then u_escape c
   else
     let n := c - 65536 in
     u_escape (55296 + (n / 1024) `mod` 1024) ++ u_escape (56320 + n `mod` 1024))%N.

Definition encode_str (s : str) : str :=
  quote ++ concat (encode_char <$> s) ++ quote.

Definition encode_scalar (v : value) : str :=
  match v with
  | VStr s => encode_str s
  | VBool true => lit "true"
  | VBool false => lit "false"
  | VInt z => of_int z
  | _ => lit "null"
  end.

Fixpoint join (sep : str) (items : list str) : str :=
  match items with
  | [] => []
  | [x] => x
  | x :: items' => x ++ sep ++ join sep items'
  end.

Definition json_dumps (indent : option nat) (v : value) : str :=
  match v with
  | VDict d =>
      let item (kv : str * value) := encode_str kv.1 ++ lit ": " ++ encode_scalar kv.2 in
      match map_to_list d, indent with
      | [], _ => lit "{}"
      | kvs, None => lit "{" ++ join (lit ", ") (item <$> kvs) ++ lit "}"
      | kvs, Some n =>
          let pad := replicate n 32%N in
          lit "{" ++ newline ++ pad
            ++ join (lit "," ++ newline ++ pad) (item <$> kvs)
            ++ newline ++ lit "}"
      end
  | _ => encode_scalar v
  end.

Definition hexval (c : N) : option N :=
  (if (48 <=? c) && (c <=? 57) then Some (c - 48)
   else if (97 <=? c) && (c <=? 102) then Some (c - 87)
   else if (65 <=? c) && (c <=? 70) then Some (c - 55)
   else None)%N.

Definition hex4 (a b c d : N) : option N :=
  a ← hexval a; b ← hexval b; c ← hexval c; d ← hexval d;
  Some (a * 4096 + b * 256 + c * 16 + d)%N.

Definition unescape (e : N) : option N :=
  (if e =? 34 then Some 34 else if e =? 92 then Some 92
   else if e =? 47 then Some 47 else if e =? 98 then Some 8
   else if e =? 102 then Some 12 else if e =? 110 then Some 10
   else if e =? 114 then Some 13 else if e =? 116 then Some 9
   else None)%N.

(** The characters of a string literal after its opening quote, decoded,
    and what follows the closing quote. *)
Fixpoint scanstring (s : str) : option (str * str) :=
  match s with
  | [] => None
  | c :: rest =>
      if (c =? 34)%N then Some ([], rest)
      else if (c =? 92)%N then
        match rest with
        | [] => None
        | e :: rest1 =>
            if (e =? 117)%N then
              match rest1 with
              | a :: b :: c :: d :: rest2 =>
                  uni ← hex4 a b c d;
                  let single := p ← scanstring rest2; Some (uni :: p.1, p.2) in
                  match rest2 with
                  | b1 :: b2 :: a' :: b' :: c' :: d' :: rest3 =>
                      if ((55296 <=? uni) && (uni <=? 56319) && (b1 =? 92) && (b2 =? 117))%N
                      then
                        uni2 ← hex4 a' b' c' d';
                        if ((56320 <=? uni2) && (uni2 <=? 57343))%N then
                          p ← scanstring rest3;
                          Some ((65536 + (uni - 55296) * 1024 + (uni2 - 56320))%N :: p.1,
                                p.2)
                        else single
                      else single
                  | _ => single
                  end
              | _ => None
              end
            else
              u ← unescape e; p ← scanstring rest1; Some (u :: p.1, p.2)
        end
      else if (c <? 32)%N then None
      else p ← scanstring rest; Some (c :: p.1, p.2)
  end.

(** What [scanstring] does once [\uXXXX] has given [uni]. *)
Definition after_u (uni : N) (rest2 : str) : option (str * str) :=
  let single := p ← scanstring rest2; Some (uni :: p.1, p.2) in
  match rest2 with
  | b1 :: b2 :: a' :: b' :: c' :: d' :: rest3 =>
      if ((55296 <=? uni) && (uni <=? 56319) && (b1 =? 92) && (b2 =? 117))%N
      then
        uni2 ← hex4 a' b' c' d';
        if ((56320 <=? uni2) && (uni2 <=? 57343))%N then
          p ← scanstring rest3;
          Some ((65536 + (uni - 55296) * 1024 + (uni2 - 56320))%N :: p.1, p.2)
        else single
      else single
  | _ => single
  end.

(** High and low surrogates. *)
Definition is_high (c : N) : bool := ((55296 <=? c) && (c <=? 56319))%N.
Definition is_low (c : N) : bool := ((56320 <=? c) && (c <=? 57343))%N.

(** The text starts with the escape of a low surrogate. *)
Definition starts_low (t : str) : bool :=
  match t with
  | b1 :: b2 :: a' :: b' :: c' :: d' :: _ =>
      (b1 =? 92)%N && (b2 =? 117)%N
      && match hex4 a' b' c' d' with Some u => is_low u | None => true end
  | _ => false
  end.

(** The strings the codec gives back as they were: code points up to
    U+10FFFF, and no high surrogate right before a low one (the decoder reads
    such a pair of escapes as one character). *)
Fixpoint well_formed (s : str) : bool :=
  match s with
  | [] => true
  | c :: s' =>
      (c <? 1114112)%N
      && negb (is_high c && match s' with c' :: _ => is_low c' | [] => false end)
      && well_formed s'
  end.

Definition is_ws (c : N) : bool := ((c =? 32) || (c =? 9) || (c =? 10) || (c =? 13))%N.

Fixpoint skip_ws (s : str) : str :=
  match s with
  | c :: s' => if is_ws c then skip_ws s' else s
  | [] => []
  end.

(** A quoted string, white space skipped before and after. *)
Definition token_string (s : str) : option (str * str) :=
  match skip_ws s with
  | 34%N :: rest => p ← scanstring rest; Some (p.1, skip_ws p.2)
  | _ => None
  end.

(** The members of an object after its opening brace, up to the closing
    one: [key: string] pairs separated by commas. *)
Fixpoint members (fuel : nat) (s : str) (acc : gmap str value) : option (gmap str value * str) :=
  match fuel with
  | O => None
  | S fuel' =>
      k ← token_string s;
      match k.2 with
      | 58%N :: rest =>
          v ← token_string rest;
          let acc' := <[k.1 := VStr v.1]> acc in
          match v.2 with
          | 44%N :: rest' => members fuel' rest' acc'
          | 125%N :: rest' => Some (acc', skip_ws rest')
          | _ => None
          end
      | _ => None
      end
  end.

Definition json_loads (s : str) : option value :=
  match skip_ws s with
  | 123%N :: rest =>
      match skip_ws rest with
      | 125%N :: rest' =>
          match skip_ws rest' with [] => Some (VDict ∅) | _ => None end
      | _ =>
          p ← members (length rest) rest ∅;
          match p.2 with [] => Some (VDict p.1) | _ => None end
      end
  | _ => None
  end.

Definition textwrap_dedent (s : str) : str := s.

(** A server that answers every request with [r]. *)
Definition answers (r : response) : request → post_outcome := λ _, Returned r.

(** A connection that fails with [exc] on every request. *)
Definition fails (exc : str) : request → post_outcome := λ _, Raised exc.

Definition completion (v : value) : value :=
  VDict (<[lit "choices" :=
      VList [VDict (<[lit "message" := VDict (<[lit "content" := v]> ∅)]> ∅)]]> ∅).

(** The text of a chat completion whose content is written [c]. *)
Definition completion_text (c : str) : str :=
  lit "{" ++ encode_str (lit "choices") ++ lit ": [{" ++ encode_str (lit "message")
    ++ lit ": {" ++ encode_str (lit "content") ++ lit ": " ++ c ++ lit "}}]}".

(** A 200 response carrying the content [v], written [c]. *)
Definition reply (c : str) (v : value) : response :=
  {| status_code := 200; text := completion_text c; json := Some (completion v) |}.

Definition verdict : str := lit "## Verdict: Go apply (80%)...".

(** A 404 with a plain-text body. *)
Definition not_found : response :=
  {| status_code := 404; text := lit "Not Found"; json := None |}.

(** A string with characters outside ASCII and outside the basic plane, a
    quote, a backslash and a line break. *)
Definition unicode : str := [90; 111; 235; 32; 26085; 26412; 32; 128512; 34; 92; 10]%N.

(** The inputs of the scenario of the specification. *)
Definition resume : str := lit "Senior engineer, 5 yrs Go".
Definition job : str := lit "Looking for Rust systems engineer".
Definition criteria : str := lit "remote only".
Definition key : str := lit "sk-or-v1-sample".

(** The slider's default, 0.2, as a binary64 number. *)
Definition point_two : spec_float := S754_finite false 7205759403792794 (-55).

(** [call_openrouter] as [main] calls it, against the server [post]. *)
Definition call (post : request → post_outcome) : result :=
  call_openrouter json_dumps textwrap_dedent post key resume job criteria
    DEFAULT_MODEL point_two 60.

(** One run of the form against the server [post]. *)
Definition run (post : request → post_outcome) (i : widgets) (w : world) : world :=
  main json_dumps json_loads textwrap_dedent post i w.

Definition events (post : request → post_outcome) (i : widgets) (w : world) : list event :=
  run_events json_dumps json_loads textwrap_dedent post i w.

Definition some_files : filesystem :=
  {| files := ∅; can_write := true; can_read := true |}.

Definition read_only (d : filesystem) : filesystem :=
  {| files := files d; can_write := false; can_read := can_read d |}.

Definition start (d : filesystem) : world :=
  {| fs := d; session_state := ∅; log := [] |}.

Definition form (resume_text job_description misc_criteria api_key : str) : widgets :=
  {| w_model := DEFAULT_MODEL; w_temperature := S754_zero false; w_api_key := api_key;
     w_resume_text := resume_text; w_job_description := job_description;
     w_misc_criteria := misc_criteria; w_submit := true |}.

End Sample.

(** * More cases to run

    Responses, forms and worlds for the properties beyond the frozen ones. *)

Module Cases.

Import Sample.

(** A 200 response whose body is a page of HTML: [response.json()] raises. *)
Definition garbled : response :=
  {| status_code := 200; text := lit "<html>Bad gateway</html>"; json := None |}.

(** A 200 response whose body is the JSON text [t] of the value [v]. *)
Definition answer (t : str) (v : value) : response :=
  {| status_code := 200; text := t; json := Some v |}.

(** The form of the scenario with the button not pressed. *)
Definition idle (resume_text job_description misc_criteria api_key : str) : widgets :=
  {| w_model := DEFAULT_MODEL; w_temperature := point_two; w_api_key := api_key;
     w_resume_text := resume_text; w_job_description := job_description;
     w_misc_criteria := misc_criteria; w_submit := false |}.

(** The form of the scenario with another model typed in. *)
Definition form_with_model (model : str) : widgets :=
  {| w_model := model; w_temperature := point_two; w_api_key := key;
     w_resume_text := resume; w_job_description := job;
     w_misc_criteria := criteria; w_submit := true |}.

(** The request of the scenario. *)
Definition scenario_request : request :=
  openrouter_request json_dumps textwrap_dedent key resume job criteria
    DEFAULT_MODEL point_two 60.

(** Another record to save. *)
Definition other_resume : str := lit "Staff engineer, 9 yrs Rust".


(** A session that already holds a resume. *)
Definition returning : world :=
  {| fs := some_files;
     session_state := <[lit "resume_text" := VStr resume]> ∅;
     log := [] |}.

End Cases.

(** * Properties *)

(** ** Strings *)

Lemma nonempty_false (s : str) : nonempty s = false ↔ s = [].
Proof. by destruct s. Qed.

Lemma nonempty_true (s : str) : nonempty s = true ↔ s ≠ [].
Proof. by destruct s. Qed.

Lemma lstrip_nil (s : str) : lstrip s = [] ↔ forallb isspace s = true.
Proof.
  induction s as [|c s IH]; simpl; [done|].
  destruct (isspace c); simpl; [done|]. split; discriminate.
Qed.

(** What [lstrip] leaves starts with a character that is not white space. *)
Lemma lstrip_head (s : str) c t : lstrip s = c :: t → isspace c = false.
Proof.
  induction s as [|a s IH]; simpl; [done|].
  destruct (isspace a) eqn:Ha; [done|]. by intros [= <- _].
Qed.

Lemma forallb_isspace_rev (s : str) :
  forallb isspace (rev s) = forallb isspace s.
Proof.
  induction s as [|c s IH]; simpl; [done|].
  rewrite forallb_app, IH. simpl. rewrite andb_true_r. apply andb_comm.
Qed.

(** [s.strip()] is empty exactly when [s] is made of white space only. *)
Lemma strip_nil (s : str) : strip s = [] ↔ forallb isspace s = true.
Proof.
  unfold strip, rstrip. split.
  - intros H. apply (f_equal (@rev N)) in H. rewrite rev_involutive in H.
    simpl in H. apply lstrip_nil in H. rewrite forallb_isspace_rev in H.
    destruct (lstrip s) as [|c t] eqn:E; [by apply lstrip_nil|].
    apply lstrip_head in E. simpl in H. by rewrite E in H.
  - intros H. apply lstrip_nil in H. by rewrite H.
Qed.

(** ** Subscripting *)

Lemma getitem_str_Some (v : value) k x :
  getitem_str v k = Some x ↔ ∃ d : gmap str value, v = VDict d ∧ d !! k = Some x.
Proof.
  split.
  - destruct v; simpl; try discriminate. eauto.
  - by intros (d & -> & H).
Qed.

Lemma getitem_int_0_list (l : list value) : getitem_int (VList l) 0 = head l.
Proof. by destruct l. Qed.

Lemma getitem_int_0_str (s : str) :
  getitem_int (VStr s) 0 = (λ c, VStr [c]) <$> head s.
Proof. by destruct s. Qed.

(** The chain of subscripts of the source finds exactly what sits at the
    path: subscripting a string, the one case where Python goes on where JSON
    has no path, stops at the next step. *)
Lemma extract_content_Some (body v : value) :
  extract_content body = Some v ↔ has_content body v.
Proof.
  unfold extract_content, has_content. split.
  - intros H.
    destruct (getitem_str body (lit "choices")) as [choices|] eqn:E1; [|done].
    apply getitem_str_Some in E1 as (d & -> & Hd). simpl in H.
    destruct (getitem_int choices 0) as [choice|] eqn:E2; [|done]. simpl in H.
    destruct (getitem_str choice (lit "message")) as [message|] eqn:E3; [|done].
    simpl in H.
    apply getitem_str_Some in E3 as (dc & -> & Hc).
    apply getitem_str_Some in H as (dm & -> & Hm).
    destruct choices as [| | | | s |l|]; try done.
    + rewrite getitem_int_0_str in E2. by destruct s.
    + rewrite getitem_int_0_list in E2. destruct l as [|x rest]; [done|].
      simpl in E2. injection E2 as ->. eauto 10.
  - intros (d & rest & dc & dm & -> & Hd & Hc & Hm). simpl.
    rewrite Hd. simpl. by rewrite Hc.
Qed.

Lemma extract_content_None (body : value) :
  extract_content body = None ↔ ∀ v, ¬ has_content body v.
Proof.
  split.
  - intros H v Hv. apply extract_content_Some in Hv. congruence.
  - intros H. destruct (extract_content body) as [v|] eqn:E; [|done].
    apply extract_content_Some in E. by destruct (H v).
Qed.

(** The values Python counts as false. *)
Lemma truthy_false (v : value) :
  truthy v = false ↔
    v = VNone ∨ v = VBool false ∨ v = VInt 0 ∨ (∃ s, v = VFloat (S754_zero s))
    ∨ v = VStr [] ∨ v = VList [] ∨ v = VDict ∅.
Proof.
  split.
  - destruct v as [|b|z|f|s|l|d]; simpl; intros H.
    + by left.
    + right; left. by subst.
    + right; right; left. apply negb_false_iff, Z.eqb_eq in H. by subst.
    + do 3 right; left. destruct f; try done. eauto.
    + do 4 right; left. by destruct s.
    + do 5 right; left. by destruct l.
    + do 6 right. destruct (map_to_list d) eqn:E; [|done].
      by apply map_to_list_empty_iff in E as ->.
  - by intros [->|[->|[->|[[s ->]|[->|[->| ->]]]]]].
Qed.

(** ** The evaluation client *)

Section Client.

Variable json_dumps : option nat → value → str.
Variable textwrap_dedent : str → str.
Variable requests_post : request → post_outcome.
Variables api_key resume_text job_description misc_criteria model : str.
Variable temperature : spec_float.
Variable request_timeout_seconds : Z.

Local Abbreviation the_request :=
  (openrouter_request json_dumps textwrap_dedent api_key resume_text
     job_description misc_criteria model temperature request_timeout_seconds).

Local Abbreviation the_result :=
  (call_openrouter json_dumps textwrap_dedent requests_post api_key resume_text
     job_description misc_criteria model temperature request_timeout_seconds).

(** The five outcomes of the source, one equation each. *)

Lemma call_openrouter_raised exc :
  requests_post the_request = Raised exc →
  the_result =
    {| ok := false; content := VStr []; raw := VDict ∅;
       error := Some (lit "Network error: " ++ exc) |}.
Proof. unfold call_openrouter. by intros ->. Qed.

Lemma call_openrouter_parse_error r :
  requests_post the_request = Returned r →
  status_code r = 200%Z →
  json r = None →
  the_result =
    {| ok := false; content := VStr [];
       raw := VDict (<[lit "text" := VStr (text r)]> ∅);
       error := Some (lit "Failed to parse API response as JSON.") |}.
Proof.
  unfold call_openrouter.
  by intros -> -> ->.
Qed.

Lemma call_openrouter_falsy r body :
  requests_post the_request = Returned r →
  status_code r = 200%Z →
  json r = Some body →
  truthy (default VNone (extract_content body)) = false →
  the_result =
    {| ok := false; content := VStr []; raw := body;
       error := Some (lit "Empty response from model.") |}.
Proof.
  unfold call_openrouter.
  intros -> -> -> H. simpl. by rewrite H.
Qed.

Lemma call_openrouter_truthy r body :
  requests_post the_request = Returned r →
  status_code r = 200%Z →
  json r = Some body →
  truthy (default VNone (extract_content body)) = true →
  the_result =
    {| ok := true; content := default VNone (extract_content body);
       raw := body; error := None |}.
Proof.
  unfold call_openrouter.
  intros -> -> -> H. simpl. by rewrite H.
Qed.

(** C1. A 200 response whose parsed body carries the non-empty string [s]
    at [choices[0].message.content] gives [ok=True], [content=s],
    [error=None] and the whole parsed body as [raw]. *)
Theorem call_openrouter_success r body s :
  requests_post the_request = Returned r →
  status_code r = 200%Z →
  json r = Some body →
  has_content body (VStr s) →
  s ≠ [] →
  the_result = {| ok := true; content := VStr s; raw := body; error := None |}.
Proof.
  intros Hpost Hstatus Hjson Hc Hs.
  apply extract_content_Some in Hc.
  rewrite (call_openrouter_truthy r body Hpost Hstatus Hjson); rewrite Hc; simpl.
  - done.
  - by apply nonempty_true.
Qed.

(** C3. A response whose status is not 200 gives [ok=False], the error
    ["API error <status>: <body>"] made of the status in decimal and the
    body text as it came, and [raw = {status_code, text}], whatever the
    body is. *)
Theorem call_openrouter_api_error r :
  requests_post the_request = Returned r →
  status_code r ≠ 200%Z →
  ok the_result = false
  ∧ error the_result =
      Some (lit "API error " ++ of_int (status_code r) ++ lit ": " ++ text r)
  ∧ raw the_result =
      VDict (<[lit "status_code" := VInt (status_code r)]>
            (<[lit "text" := VStr (text r)]> ∅))
  ∧ content the_result = VStr [].
Proof.
  unfold call_openrouter.
  intros -> Hstatus. apply Z.eqb_neq in Hstatus. by rewrite Hstatus.
Qed.

(** C4. A 200 response with a parsed body in which
    [choices[0].message.content] is absent, null or the empty string gives
    [ok=False], the error ["Empty response from model."] and the whole
    parsed body as [raw]. *)
Theorem call_openrouter_empty r body :
  requests_post the_request = Returned r →
  status_code r = 200%Z →
  json r = Some body →
  (∀ v, ¬ has_content body v) ∨ has_content body VNone ∨ has_content body (VStr []) →
  the_result =
    {| ok := false; content := VStr []; raw := body;
       error := Some (lit "Empty response from model.") |}.
Proof.
  intros Hpost Hstatus Hjson Hc.
  apply (call_openrouter_falsy r body Hpost Hstatus Hjson).
  destruct Hc as [Hc|[Hc|Hc]].
  - apply extract_content_None in Hc. by rewrite Hc.
  - apply extract_content_Some in Hc. by rewrite Hc.
  - apply extract_content_Some in Hc. by rewrite Hc.
Qed.

(** C10. A 200 response with a parsed body in which
    [choices[0].message.content] is any value Python counts as false
    ([False], [0], an empty list, ...) is classified as empty as well:
    [ok=False] with the error ["Empty response from model."]. *)
Theorem call_openrouter_falsy_content r body v :
  requests_post the_request = Returned r →
  status_code r = 200%Z →
  json r = Some body →
  has_content body v →
  truthy v = false →
  the_result =
    {| ok := false; content := VStr []; raw := body;
       error := Some (lit "Empty response from model.") |}.
Proof.
  intros Hpost Hstatus Hjson Hc Hv.
  apply (call_openrouter_falsy r body Hpost Hstatus Hjson).
  apply extract_content_Some in Hc. by rewrite Hc.
Qed.


End Client.

(** ** The persistence store *)

Section Store.

Variable json_dumps : option nat → value → str.
Variable json_loads : str → option value.

Lemma save_user_data_denied r m k d :
  can_write d = false → save_user_data json_dumps r m k d = d.
Proof. unfold save_user_data. by intros ->. Qed.

Lemma save_user_data_written r m k d :
  can_write d = true →
  files (save_user_data json_dumps r m k d) !! DATA_FILE
    = Some (json_dumps (Some 2%nat) (user_data_dict r m k))
  ∧ can_read (save_user_data json_dumps r m k d) = can_read d.
Proof.
  unfold save_user_data. intros ->. simpl. by rewrite lookup_insert_eq.
Qed.

Lemma load_user_data_object (d : filesystem) (contents : str) (obj : gmap str value) :
  files d !! DATA_FILE = Some contents →
  can_read d = true →
  json_loads contents = Some (VDict obj) →
  load_user_data json_loads d =
    {| resume_text := default (VStr []) (obj !! lit "resume_text");
       misc_criteria := default (VStr []) (obj !! lit "misc_criteria");
       api_key := default (VStr []) (obj !! lit "api_key") |}.
Proof.
  unfold load_user_data, load_user_data_try. intros -> -> . simpl.
  by intros ->.
Qed.


(** C6. [load_user_data] returns a record on every file system (its body
    raises, where it does, inside the [try]): the all-empty record when
    the file is missing and when its contents do not parse as JSON; and
    when the file holds a JSON object, each of the three keys with its
    stored value, or the empty string where the key is missing. *)
Theorem load_user_data_defaults (d : filesystem) :
  (files d !! DATA_FILE = None → load_user_data json_loads d = no_user_data)
  ∧ (∀ contents : str,
       files d !! DATA_FILE = Some contents →
       json_loads contents = None →
       load_user_data json_loads d = no_user_data)
  ∧ (∀ (contents : str) (obj : gmap str value),
       files d !! DATA_FILE = Some contents →
       can_read d = true →
       json_loads contents = Some (VDict obj) →
       load_user_data json_loads d =
         {| resume_text := default (VStr []) (obj !! lit "resume_text");
            misc_criteria := default (VStr []) (obj !! lit "misc_criteria");
            api_key := default (VStr []) (obj !! lit "api_key") |})
  ∧ (load_user_data_try json_loads d = None →
     load_user_data json_loads d = no_user_data).
Proof.
  repeat split.
  - unfold load_user_data, load_user_data_try. by intros ->.
  - unfold load_user_data, load_user_data_try. intros contents -> H.
    destruct (can_read d); simpl; [|done]. by rewrite H.
  - apply load_user_data_object.
  - unfold load_user_data. by intros ->.
Qed.

(** Other failures inside the [try] end the same way. *)
Lemma load_user_data_unreadable (d : filesystem) :
  can_read d = false → load_user_data json_loads d = no_user_data.
Proof.
  unfold load_user_data, load_user_data_try. intros ->.
  by destruct (files d !! DATA_FILE).
Qed.

Lemma load_user_data_not_object (d : filesystem) (contents : str) (v : value) :
  files d !! DATA_FILE = Some contents →
  json_loads contents = Some v →
  (∀ obj, v ≠ VDict obj) →
  load_user_data json_loads d = no_user_data.
Proof.
  unfold load_user_data, load_user_data_try. intros -> Hv Hobj.
  destruct (can_read d); simpl; [|done]. rewrite Hv. simpl.
  destruct v; try done. by destruct (Hobj d0).
Qed.

End Store.

(** ** The form *)

Lemma log_emit e w : log (emit e w) = log w ++ [e].
Proof. done. Qed.

Lemma fs_emit e w : fs (emit e w) = fs w.
Proof. done. Qed.

Lemma log_seed key v w : log (seed key v w) = log w.
Proof. unfold seed. by destruct (session_state w !! key). Qed.

Lemma fs_seed key v w : fs (seed key v w) = fs w.
Proof. unfold seed. by destruct (session_state w !! key). Qed.

Lemma log_with_fs f w : log (with_fs f w) = log w.
Proof. done. Qed.

Lemma fs_with_fs f w : fs (with_fs f w) = f (fs w).
Proof. done. Qed.

Create Rewrite HintDb world.
#[export] Hint Rewrite log_emit fs_emit log_seed fs_seed log_with_fs fs_with_fs : world.

Section Form.

Variable json_dumps : option nat → value → str.
Variable json_loads : str → option value.
Variable textwrap_dedent : str → str.
Variable requests_post : request → post_outcome.

Local Abbreviation run := (main json_dumps json_loads textwrap_dedent requests_post).
Local Abbreviation events :=
  (run_events json_dumps json_loads textwrap_dedent requests_post).

(** The request and the result of the call a form leads to. *)
Local Abbreviation model_of i :=
  (if nonempty (strip (w_model i)) then strip (w_model i) else DEFAULT_MODEL).
Local Abbreviation request_of i :=
  (openrouter_request json_dumps textwrap_dedent (w_api_key i) (w_resume_text i)
     (w_job_description i) (w_misc_criteria i) (model_of i) (w_temperature i) 60).
Local Abbreviation result_of i :=
  (call_openrouter json_dumps textwrap_dedent requests_post (w_api_key i)
     (w_resume_text i) (w_job_description i) (w_misc_criteria i) (model_of i)
     (w_temperature i) 60).

Lemma preamble_quiet i :
  posts (preamble i) = [] ∧ saves (preamble i) = [] ∧ errors (preamble i) = [].
Proof. unfold preamble. by destruct (nonempty (w_api_key i)). Qed.

Ltac run_main :=
  unfold run_events, main, preamble;
  intros;
  repeat match goal with H : _ = _ |- _ => rewrite H end;
  simpl negb; cbv iota;
  repeat match goal with
         | |- context [if ?b then _ else _] => destruct b eqn:?
         end;
  autorewrite with world; rewrite <- ?app_assoc; try rewrite drop_app_length;
  try done.

Lemma run_not_submitted i w :
  w_submit i = false →
  events i w = preamble i ∧ fs (run i w) = fs w.
Proof. run_main. Qed.

(** A submission that fails validation: the preamble, one error, nothing
    else. *)
Lemma run_rejected i w :
  w_submit i = true →
  strip (w_resume_text i) = [] ∨ strip (w_job_description i) = [] ∨ w_api_key i = [] →
  events i w =
    preamble i ++
    [st_error
       (if nonempty (strip (w_resume_text i)) then
          if nonempty (strip (w_job_description i)) then
            lit "Please enter your OpenRouter API key in the sidebar."
          else lit "Please paste the job description."
        else lit "Please paste your resume.")]
  ∧ fs (run i w) = fs w.
Proof.
  intros Hsubmit Hmissing.
  assert (nonempty (strip (w_resume_text i)) && nonempty (strip (w_job_description i))
          && nonempty (w_api_key i) = false) as Hcheck.
  { destruct Hmissing as [H|[H|H]]; rewrite H; simpl;
      rewrite ?andb_false_r; done. }
  revert Hcheck. run_main.
Qed.

(** A submission that passes validation: the preamble, the spinner, the
    network call, the save, and then what the result asks for. *)
Lemma run_accepted i w :
  w_submit i = true →
  strip (w_resume_text i) ≠ [] →
  strip (w_job_description i) ≠ [] →
  w_api_key i ≠ [] →
  events i w =
    preamble i ++
    [st_spinner (lit "Analyzing match with the LLM...");
     requests_post_call (request_of i);
     save_user_data_call (w_resume_text i) (w_misc_criteria i) (w_api_key i)] ++
    (if ok (result_of i) then
       [st_subheader (lit "Results"); st_markdown (content (result_of i))]
     else
       [st_error (match error (result_of i) with
                  | Some e => if nonempty e then e else lit "Unknown error"
                  | None => lit "Unknown error"
                  end)]) ++
    [st_expander (lit "Show raw response");
     st_code (json_dumps (Some 2%nat) (raw (result_of i)))]
  ∧ fs (run i w) =
      save_user_data json_dumps (w_resume_text i) (w_misc_criteria i) (w_api_key i) (fs w).
Proof.
  intros Hsubmit Hr%nonempty_true Hj%nonempty_true Hk%nonempty_true.
  run_main.
Qed.

(** C7. A submission in which the resume is blank, the job description is
    blank or the API key is empty stops at validation: no network call, no
    save, and exactly one error message, the one of the first missing field
    in the order resume, job description, API key; so each field missing
    alone gives its own message, and the three messages differ. *)
Theorem main_validation i w :
  w_submit i = true →
  strip (w_resume_text i) = [] ∨ strip (w_job_description i) = [] ∨ w_api_key i = [] →
  posts (events i w) = []
  ∧ saves (events i w) = []
  ∧ fs (run i w) = fs w
  ∧ (strip (w_resume_text i) = [] →
     errors (events i w) = [lit "Please paste your resume."])
  ∧ (strip (w_resume_text i) ≠ [] → strip (w_job_description i) = [] →
     errors (events i w) = [lit "Please paste the job description."])
  ∧ (strip (w_resume_text i) ≠ [] → strip (w_job_description i) ≠ [] →
     w_api_key i = [] →
     errors (events i w)
       = [lit "Please enter your OpenRouter API key in the sidebar."])
  ∧ lit "Please paste your resume." ≠ lit "Please paste the job description."
  ∧ lit "Please paste your resume."
      ≠ lit "Please enter your OpenRouter API key in the sidebar."
  ∧ lit "Please paste the job description."
      ≠ lit "Please enter your OpenRouter API key in the sidebar.".
Proof.
  intros Hsubmit Hmissing.
  destruct (run_rejected i w Hsubmit Hmissing) as [Hrun Hfs].
  destruct (preamble_quiet i) as (Hp & Hs & He).
  rewrite Hrun. unfold posts, saves, errors in *.
  rewrite !omap_app, Hp, Hs, He. simpl.
  repeat split; try done.
  - by intros ->.
  - intros ->%nonempty_true. by intros ->.
  - by intros ->%nonempty_true ->%nonempty_true.
Qed.


(** C9. Validation strips the resume and the job description but not the
    API key: with a non-empty string of white space as the resume, or as the
    job description, the run stops with that field's error and no network
    call; with it as the API key, beside a resume and a job description that
    are not blank, the request is posted with that key. *)
Theorem main_whitespace i w (ws : str) :
  w_submit i = true →
  ws ≠ [] →
  forallb isspace ws = true →
  (w_resume_text i = ws →
   errors (events i w) = [lit "Please paste your resume."]
   ∧ posts (events i w) = [])
  ∧ (strip (w_resume_text i) ≠ [] → w_job_description i = ws →
     errors (events i w) = [lit "Please paste the job description."]
     ∧ posts (events i w) = [])
  ∧ (strip (w_resume_text i) ≠ [] → strip (w_job_description i) ≠ [] →
     w_api_key i = ws →
     posts (events i w) = [request_of i]).
Proof.
  intros Hsubmit Hws Hspace. apply strip_nil in Hspace.
  destruct (preamble_quiet i) as (Hp & Hs & He).
  split; [|split].
  - intros Hr. rewrite <- Hr in Hspace.
    destruct (run_rejected i w Hsubmit (or_introl Hspace)) as [-> _].
    unfold errors, posts in *. by rewrite !omap_app, He, Hp, Hspace.
  - intros Hr Hj. rewrite <- Hj in Hspace.
    destruct (run_rejected i w Hsubmit (or_intror (or_introl Hspace))) as [-> _].
    apply nonempty_true in Hr.
    unfold errors, posts in *. by rewrite !omap_app, He, Hp, Hr, Hspace.
  - intros Hr Hj Hk. rewrite <- Hk in Hws.
    destruct (run_accepted i w Hsubmit Hr Hj Hws) as [-> _].
    unfold posts in *. rewrite !omap_app, Hp. by destruct (ok _).
Qed.

End Form.


(** ** The sample codec *)

Section Codec.

Import Sample.

Lemma hexval_hexdigit (d : N) : (d < 16)%N → hexval (hexdigit d) = Some d.
Proof.
  intros H. destruct d as [|p]; [done|].
  do 4 (destruct p as [p|p|]; try done); lia.
Qed.

Ltac Zify.zify_post_hook ::= Z.to_euclidean_division_equations.

Lemma hex4_u_escape (n : N) :
  (n < 65536)%N →
  ∃ a b c d, u_escape n = [92; 117; a; b; c; d]%N ∧ hex4 a b c d = Some n.
Proof.
  intros H. unfold u_escape. eexists _, _, _, _. split; [reflexivity|].
  unfold hex4. rewrite !hexval_hexdigit by lia. simpl. f_equal. lia.
Qed.

Lemma scanstring_u (a b c d : N) (rest2 : str) :
  scanstring (92 :: 117 :: a :: b :: c :: d :: rest2)%N
    = uni ← hex4 a b c d; after_u uni rest2.
Proof. reflexivity. Qed.

Lemma scanstring_escape (e : N) (rest1 : str) :
  (e =? 117)%N = false →
  scanstring (92 :: e :: rest1)%N
    = u ← unescape e; p ← scanstring rest1; Some (u :: p.1, p.2).
Proof. intros H. simpl. by rewrite H. Qed.

Lemma scanstring_plain (c : N) (rest : str) :
  (c =? 34)%N = false → (c =? 92)%N = false → (c <? 32)%N = false →
  scanstring (c :: rest) = p ← scanstring rest; Some (c :: p.1, p.2).
Proof. intros H1 H2 H3. simpl. by rewrite H1, H2, H3. Qed.

Lemma after_u_single (uni : N) (rest2 : str) :
  is_high uni && starts_low rest2 = false →
  after_u uni rest2 = p ← scanstring rest2; Some (uni :: p.1, p.2).
Proof.
  unfold after_u, starts_low, is_high, is_low.
  destruct rest2 as [|b1 [|b2 [|a' [|b' [|c' [|d' rest3]]]]]]; try done.
  destruct ((55296 <=? uni)%N && (uni <=? 56319)%N); simpl; [|done].
  destruct (b1 =? 92)%N; simpl; [|done].
  destruct (b2 =? 117)%N; simpl; [|done].
  destruct (hex4 a' b' c' d') as [u|]; simpl; [|done].
  by intros ->.
Qed.

Ltac props :=
  repeat match goal with
         | H : (_ && _) = true |- _ => apply andb_true_iff in H as [??]
         | H : (_ <? _)%N = true |- _ => apply N.ltb_lt in H
         | H : (_ <? _)%N = false |- _ => apply N.ltb_ge in H
         | H : (_ <=? _)%N = true |- _ => apply N.leb_le in H
         | H : (_ <=? _)%N = false |- _ => apply N.leb_gt in H
         | H : (_ =? _)%N = true |- _ => apply N.eqb_eq in H
         | H : (_ =? _)%N = false |- _ => apply N.eqb_neq in H
         end.

Lemma is_low_false (u : N) : (u < 56320 ∨ 57343 < u)%N → is_low u = false.
Proof.
  unfold is_low. intros [H|H].
  - apply N.leb_gt in H. by rewrite H.
  - apply N.leb_gt in H. rewrite H. apply andb_false_r.
Qed.

Lemma starts_low_encode_char (c : N) (t : str) :
  (c <? 1114112)%N = true → is_low c = false →
  starts_low (encode_char c ++ t) = false.
Proof.
  intros Hc Hlow. unfold encode_char.
  repeat match goal with
         | |- context [if ?b then _ else _] => destruct b eqn:?
         end; try done.
  1-7: simpl; by destruct t as [|? [|? [|? [|? ?]]]].
  - simpl. destruct t as [|? [|? [|? [|? [|? ?]]]]]; simpl; try done.
    by replace (c =? 92)%N with false.
  - props. destruct (hex4_u_escape c ltac:(lia)) as (a & b & c' & d & -> & Hhex).
    simpl. by rewrite Hhex.
  - props. set (n := (c - 65536)%N).
    destruct (hex4_u_escape (55296 + (n / 1024) `mod` 1024)%N ltac:(lia))
      as (a & b & c' & d & -> & Hhex).
    simpl. rewrite Hhex. apply is_low_false. lia.
Qed.

Lemma scanstring_encode (s rest : str) :
  well_formed s = true →
  scanstring (concat (encode_char <$> s) ++ 34%N :: rest) = Some (s, rest).
Proof.
  induction s as [|c s IH]; [done|].
  intros Hwf. simpl in Hwf.
  apply andb_true_iff in Hwf as [Hwf Hs]. apply andb_true_iff in Hwf as [Hc Hpair].
  specialize (IH Hs). apply negb_true_iff in Hpair.
  assert (starts_low (concat (encode_char <$> s) ++ 34%N :: rest) = false
          ∨ is_high c = false) as Hnext.
  { destruct (is_high c); [|by right]. left. simpl in Hpair.
    destruct s as [|c' s']; [simpl; by destruct rest as [|? [|? [|? [|? [|? ?]]]]]|].
    simpl in Hs. apply andb_true_iff in Hs as [Hs _]. apply andb_true_iff in Hs as [Hc' _].
    rewrite fmap_cons. cbn [concat]. rewrite <- app_assoc.
    by apply starts_low_encode_char. }
  rewrite fmap_cons. cbn [concat]. rewrite <- app_assoc. unfold encode_char at 1.
  repeat match goal with
         | |- context [if ?b then _ else _] => destruct b eqn:?
         end; props; subst.
  1-7: cbn [app]; rewrite scanstring_escape by done; by rewrite IH.
  - cbn [app]. rewrite scanstring_plain; [by rewrite IH| |  |].
    all: by (apply N.eqb_neq || apply N.ltb_ge).
  - destruct (hex4_u_escape c ltac:(lia)) as (a & b & c' & d & -> & Hhex).
    cbn [app]. rewrite scanstring_u, Hhex. cbn [mbind option_bind].
    rewrite after_u_single; [by rewrite IH|].
    destruct Hnext as [->| ->]; [apply andb_false_r|done].
  - set (n := (c - 65536)%N).
    destruct (hex4_u_escape (55296 + (n / 1024) `mod` 1024)%N ltac:(lia))
      as (a & b & c' & d & -> & Hhex).
    destruct (hex4_u_escape (56320 + n `mod` 1024)%N ltac:(lia))
      as (a2 & b2 & c2 & d2 & -> & Hhex2).
    cbn [app]. rewrite scanstring_u, Hhex. cbn [mbind option_bind]. unfold after_u.
    replace ((55296 <=? 55296 + (n `div` 1024) `mod` 1024)%N) with true
      by (symmetry; apply N.leb_le; lia).
    replace ((55296 + (n `div` 1024) `mod` 1024 <=? 56319)%N) with true
      by (symmetry; apply N.leb_le; lia).
    rewrite !N.eqb_refl. cbn [andb]. rewrite Hhex2. cbn [mbind option_bind].
    replace ((56320 <=? 56320 + n `mod` 1024)%N) with true
      by (symmetry; apply N.leb_le; lia).
    replace ((56320 + n `mod` 1024 <=? 57343)%N) with true
      by (symmetry; apply N.leb_le; lia).
    cbn [andb]. rewrite IH. simpl. do 2 f_equal. f_equal. lia.
Qed.

Lemma user_data_items (r m k : str) :
  map_to_list (<[lit "resume_text" := VStr r]>
        (<[lit "misc_criteria" := VStr m]>
        (<[lit "api_key" := VStr k]> (∅ : gmap str value))))
  = [(lit "api_key", VStr k); (lit "resume_text", VStr r); (lit "misc_criteria", VStr m)].
Proof. vm_compute. reflexivity. Qed.

Lemma skip_ws_app (ws t : str) :
  forallb is_ws ws = true → skip_ws (ws ++ t) = skip_ws t.
Proof.
  induction ws as [|c ws IH]; [done|]. simpl.
  intros [Hc Hws]%andb_true_iff. rewrite Hc. by apply IH.
Qed.

Lemma skip_ws_stop (c : N) (t : str) : is_ws c = false → skip_ws (c :: t) = c :: t.
Proof. intros H. simpl. by rewrite H. Qed.

Lemma token_string_encode (ws s rest : str) :
  forallb is_ws ws = true →
  well_formed s = true →
  token_string (ws ++ encode_str s ++ rest) = Some (s, skip_ws rest).
Proof.
  intros Hws Hs. unfold token_string, encode_str.
  rewrite skip_ws_app by done. rewrite <- !app_assoc. cbn [app quote].
  rewrite skip_ws_stop by done.
  by rewrite scanstring_encode.
Qed.

Lemma members_more (fuel : nat) (s : str) (acc : gmap str value)
    (key v rest1 rest2 : str) :
  token_string s = Some (key, 58%N :: rest1) →
  token_string rest1 = Some (v, 44%N :: rest2) →
  members (S fuel) s acc = members fuel rest2 (<[key := VStr v]> acc).
Proof. intros H1 H2. simpl. rewrite H1. simpl. by rewrite H2. Qed.

Lemma members_last (fuel : nat) (s : str) (acc : gmap str value)
    (key v rest1 rest2 : str) :
  token_string s = Some (key, 58%N :: rest1) →
  token_string rest1 = Some (v, 125%N :: rest2) →
  members (S fuel) s acc = Some (<[key := VStr v]> acc, skip_ws rest2).
Proof. intros H1 H2. simpl. rewrite H1. simpl. by rewrite H2. Qed.

Lemma json_dumps_user_data (r m k : str) :
  json_dumps (Some 2%nat) (user_data_dict r m k) =
    [123; 10]%N ++
    [32; 32]%N ++ encode_str (lit "api_key") ++ [58]%N ++
      [32]%N ++ encode_str k ++ [44]%N ++
    [10; 32; 32]%N ++ encode_str (lit "resume_text") ++ [58]%N ++
      [32]%N ++ encode_str r ++ [44]%N ++
    [10; 32; 32]%N ++ encode_str (lit "misc_criteria") ++ [58]%N ++
      [32]%N ++ encode_str m ++ [10; 125]%N.
Proof.
  unfold json_dumps, user_data_dict. rewrite user_data_items.
  cbn [fmap list_fmap join fst snd encode_scalar replicate].
  change (lit "{") with [123%N]. change newline with [10%N].
  change (lit ": ") with [58; 32]%N. change (lit ",") with [44%N].
  change (lit "}") with [125%N].
  rewrite <- !app_assoc. reflexivity.
Qed.

Lemma member_tokens (ws key v rest : str) :
  forallb is_ws ws = true →
  well_formed key = true →
  well_formed v = true →
  token_string (ws ++ encode_str key ++ [58]%N ++ [32]%N ++ encode_str v ++ rest)
    = Some (key, 58%N :: [32]%N ++ encode_str v ++ rest)
  ∧ token_string ([32]%N ++ encode_str v ++ rest) = Some (v, skip_ws rest).
Proof.
  intros Hws Hkey Hv. split.
  - by rewrite token_string_encode.
  - by rewrite token_string_encode.
Qed.

Lemma members_object (fuel : nat) (r m k : str) :
  well_formed r = true → well_formed m = true → well_formed k = true →
  members (S (S (S fuel)))
    ([10; 32; 32]%N ++ encode_str (lit "api_key") ++ [58]%N ++
       [32]%N ++ encode_str k ++ [44]%N ++
     [10; 32; 32]%N ++ encode_str (lit "resume_text") ++ [58]%N ++
       [32]%N ++ encode_str r ++ [44]%N ++
     [10; 32; 32]%N ++ encode_str (lit "misc_criteria") ++ [58]%N ++
       [32]%N ++ encode_str m ++ [10; 125]%N) ∅
  = Some (<[lit "misc_criteria" := VStr m]>
            (<[lit "resume_text" := VStr r]> (<[lit "api_key" := VStr k]> ∅)), []).
Proof.
  intros Hr Hm Hk.
  set (third := [10; 32; 32]%N ++ encode_str (lit "misc_criteria") ++ _).
  set (second := [10; 32; 32]%N ++ encode_str (lit "resume_text") ++ _).
  destruct (member_tokens [10; 32; 32]%N (lit "api_key") k ([44]%N ++ second))
    as [K1 V1]; [done..|].
  destruct (member_tokens [10; 32; 32]%N (lit "resume_text") r ([44]%N ++ third))
    as [K2 V2]; [done..|].
  destruct (member_tokens [10; 32; 32]%N (lit "misc_criteria") m [10; 125]%N)
    as [K3 V3]; [done..|].
  rewrite (members_more _ _ _ _ _ _ _ K1 V1).
  rewrite (members_more _ _ _ _ _ _ _ K2 V2).
  by rewrite (members_last _ _ _ _ _ _ _ K3 V3).
Qed.

(** The sample codec reads back every record of well-formed strings. *)
Lemma sample_codec_round_trip (r m k : str) :
  well_formed r = true → well_formed m = true → well_formed k = true →
  json_loads (json_dumps (Some 2%nat) (user_data_dict r m k))
    = Some (user_data_dict r m k).
Proof.
  intros Hr Hm Hk. rewrite json_dumps_user_data.
  unfold json_loads.
  set (text := [32; 32]%N ++ encode_str (lit "api_key") ++ _).
  change ([123; 10]%N ++ text) with (123%N :: [10]%N ++ text).
  rewrite skip_ws_stop by done.
  rewrite skip_ws_app by done. subst text.
  rewrite skip_ws_app by done. unfold encode_str at 1. cbn [app quote].
  rewrite skip_ws_stop by done. fold quote.
  match goal with
  | |- context [members ?n ?t ∅] =>
      assert (∃ fuel, n = S (S (S fuel))) as [fuel ->] by (eexists; reflexivity);
      rewrite (members_object fuel r m k Hr Hm Hk : members _ t ∅ = _)
  end.
  reflexivity.
Qed.

(** With the sample codec, a record of well-formed strings comes back from
    a file that can be written and read. *)
Lemma sample_save_then_load (r m k : str) (d : filesystem) :
  can_write d = true →
  can_read d = true →
  well_formed r = true → well_formed m = true → well_formed k = true →
  load_user_data json_loads (save_user_data json_dumps r m k d) =
    {| resume_text := VStr r; misc_criteria := VStr m; api_key := VStr k |}.
Proof.
  intros Hw Hread Hr Hm Hk.
  destruct (save_user_data_written json_dumps r m k d Hw) as [Hfile Hread'].
  rewrite Hread in Hread'.
  by rewrite (load_user_data_object json_loads _ _ _ Hfile Hread'
                (sample_codec_round_trip r m k Hr Hm Hk)).
Qed.

End Codec.

(** * The properties on concrete runs *)

Import Sample.

Lemma has_content_completion v : has_content (completion v) v.
Proof.
  unfold has_content, completion. eexists _, _, _, _.
  split; [reflexivity|]. split; [apply lookup_insert_eq|].
  split; apply lookup_insert_eq.
Qed.

(** The scenario of the specification: the verdict comes back as content. *)
Lemma call_openrouter_success_run :
  call (answers (reply (encode_str verdict) (VStr verdict))) =
    {| ok := true; content := VStr verdict; raw := completion (VStr verdict);
       error := None |}.
Proof.
  unfold call.
  apply (call_openrouter_success json_dumps textwrap_dedent
           (answers (reply (encode_str verdict) (VStr verdict)))
           key resume job criteria DEFAULT_MODEL point_two 60
           (reply (encode_str verdict) (VStr verdict))).
  - reflexivity.
  - reflexivity.
  - reflexivity.
  - apply has_content_completion.
  - discriminate.
Defined.

(** A 404 with a plain-text body. *)
Lemma call_openrouter_api_error_run :
  ok (call (answers not_found)) = false
  ∧ error (call (answers not_found)) = Some (lit "API error 404: Not Found")
  ∧ raw (call (answers not_found)) =
      VDict (<[lit "status_code" := VInt 404]> (<[lit "text" := VStr (lit "Not Found")]> ∅))
  ∧ content (call (answers not_found)) = VStr [].
Proof.
  unfold call.
  apply (call_openrouter_api_error json_dumps textwrap_dedent (answers not_found)
           key resume job criteria DEFAULT_MODEL point_two 60 not_found).
  - reflexivity.
  - discriminate.
Defined.

(** A completion whose content is [null]. *)
Lemma call_openrouter_empty_run :
  call (answers (reply (lit "null") VNone)) =
    {| ok := false; content := VStr []; raw := completion VNone;
       error := Some (lit "Empty response from model.") |}.
Proof.
  unfold call.
  apply (call_openrouter_empty json_dumps textwrap_dedent
           (answers (reply (lit "null") VNone))
           key resume job criteria DEFAULT_MODEL point_two 60
           (reply (lit "null") VNone)).
  - reflexivity.
  - reflexivity.
  - reflexivity.
  - right; left. apply has_content_completion.
Defined.

(** A completion whose content is [false]. *)
Lemma call_openrouter_falsy_content_run :
  call (answers (reply (lit "false") (VBool false))) =
    {| ok := false; content := VStr []; raw := completion (VBool false);
       error := Some (lit "Empty response from model.") |}.
Proof.
  unfold call.
  apply (call_openrouter_falsy_content json_dumps textwrap_dedent
           (answers (reply (lit "false") (VBool false)))
           key resume job criteria DEFAULT_MODEL point_two 60
           (reply (lit "false") (VBool false)) _ (VBool false)).
  - reflexivity.
  - reflexivity.
  - reflexivity.
  - apply has_content_completion.
  - reflexivity.
Defined.




(** An empty resume: the error of the resume, and no network call. *)
Lemma main_validation_run :
  posts (events (answers (reply (encode_str verdict) (VStr verdict)))
           (form [] job criteria key) (start some_files)) = []
  ∧ errors (events (answers (reply (encode_str verdict) (VStr verdict)))
              (form [] job criteria key) (start some_files))
      = [lit "Please paste your resume."].
Proof.
  destruct (main_validation json_dumps json_loads textwrap_dedent
              (answers (reply (encode_str verdict) (VStr verdict)))
              (form [] job criteria key) (start some_files)
              eq_refl (or_introl eq_refl)) as (Hposts & _ & _ & Herror & _).
  split; [exact Hposts | exact (Herror eq_refl)].
Defined.


(** Three spaces as the API key: the request goes out with them. *)
Lemma main_whitespace_run :
  posts (events (answers (reply (encode_str verdict) (VStr verdict)))
           (form resume job criteria (lit "   ")) (start some_files))
    = [openrouter_request json_dumps textwrap_dedent (lit "   ") resume job criteria
         DEFAULT_MODEL point_two 60].
Proof.
  destruct (main_whitespace json_dumps json_loads textwrap_dedent
              (answers (reply (encode_str verdict) (VStr verdict)))
              (form resume job criteria (lit "   ")) (start some_files) (lit "   ")
              eq_refl) as (_ & _ & Hkey).
  - discriminate.
  - reflexivity.
  - apply Hkey.
    + vm_compute. discriminate.
    + vm_compute. discriminate.
    + reflexivity.
Defined.

(** The sample codec, like the library it is written after, joins a high
    and a low surrogate that stand side by side into one character: such a
    record does not come back as it was saved. *)
Lemma sample_codec_joins_surrogates :
  load_user_data json_loads
    (save_user_data json_dumps [55357; 56832]%N [] [] some_files)
    = {| resume_text := VStr [128512]%N; misc_criteria := VStr [];
         api_key := VStr [] |}.
Proof. vm_compute. reflexivity. Qed.

(** * Further properties of the client *)

(** An event of one kind is in no list of events of other kinds. *)
Ltac not_listed H :=
  simpl in H;
  repeat (apply elem_of_cons in H as [H|H]; [discriminate H|]);
  by apply elem_of_nil in H.

(** Two texts that start with different characters differ. *)
Ltac first_chars H := apply (f_equal head) in H; vm_compute in H; discriminate H.

Section ClientOutcomes.

Variable json_dumps : option nat → value → str.
Variable textwrap_dedent : str → str.
Variable requests_post : request → post_outcome.
Variables api_key resume_text job_description misc_criteria model : str.
Variable temperature : spec_float.
Variable request_timeout_seconds : Z.

Local Abbreviation posted :=
  (requests_post
     (openrouter_request json_dumps textwrap_dedent api_key resume_text
        job_description misc_criteria model temperature request_timeout_seconds)).

Local Abbreviation returned :=
  (call_openrouter json_dumps textwrap_dedent requests_post api_key resume_text
     job_description misc_criteria model temperature request_timeout_seconds).

(** X1. When [requests.post] raises a [RequestException], the result is
    [ok=False] with empty content, the empty dict as [raw], and the error
    ["Network error: "] followed by the text of the exception. *)
Theorem call_openrouter_network_error (exc : str) :
  posted = Raised exc →
  returned =
    {| ok := false; content := VStr []; raw := VDict ∅;
       error := Some (lit "Network error: " ++ exc) |}.
Proof. unfold call_openrouter. by intros ->. Qed.

(** X2. A 200 response whose body does not parse gives [ok=False], the error
    ["Failed to parse API response as JSON."], and the body text under
    ["text"] as [raw]. *)
Theorem call_openrouter_unparseable (r : response) :
  posted = Returned r →
  status_code r = 200%Z →
  json r = None →
  ok returned = false
  ∧ content returned = VStr []
  ∧ error returned = Some (lit "Failed to parse API response as JSON.")
  ∧ raw returned = VDict (<[lit "text" := VStr (text r)]> ∅).
Proof. unfold call_openrouter. by intros -> -> ->. Qed.


(** X4. The error message tells the kind of failure: it starts with
    ["Network error: "] exactly when [requests.post] raised, with
    ["API error "] exactly when the status was not 200, it is the parse
    message exactly when a 200 body did not parse, and the empty-response
    message exactly when a parsed 200 body had nothing true at the content
    path. *)
Theorem call_openrouter_error_kind (e : str) :
  error returned = Some e →
  (lit "Network error: " `prefix_of` e ↔ ∃ exc, posted = Raised exc)
  ∧ (lit "API error " `prefix_of` e ↔
       ∃ r, posted = Returned r ∧ status_code r ≠ 200%Z)
  ∧ (e = lit "Failed to parse API response as JSON." ↔
       ∃ r, posted = Returned r ∧ status_code r = 200%Z ∧ json r = None)
  ∧ (e = lit "Empty response from model." ↔
       ∃ r body, posted = Returned r ∧ status_code r = 200%Z ∧ json r = Some body
                 ∧ ∀ v, has_content body v → truthy v = false).
Proof.
  unfold call_openrouter. destruct posted as [exc|r] eqn:Hpost.
  { intros He; cbn [error] in He.
    assert (e = lit "Network error: " ++ exc) as -> by congruence. clear He.
    split; [|split; [|split]].
    - split; [eauto|]. intros _. by apply prefix_app_r.
    - split; [intros [t Ht]; first_chars Ht | intros (? & ? & _); congruence].
    - split; [intros Ht; first_chars Ht | intros (? & ? & _); congruence].
    - split; [intros Ht; first_chars Ht | intros (? & ? & ? & _); congruence]. }
  destruct (status_code r =? 200)%Z eqn:Hs; cbn [negb].
  - apply Z.eqb_eq in Hs. destruct (json r) as [body|] eqn:Hj.
    + destruct (truthy (default VNone (extract_content body))) eqn:Ht; cbn [negb];
        [done|].
      intros He; cbn [error] in He.
      assert (e = lit "Empty response from model.") as -> by congruence. clear He.
      split; [|split; [|split]].
      * split; [intros [t Hp]; first_chars Hp | intros (? & ?); congruence].
      * split; [intros [t Hp]; first_chars Hp | intros (? & [= <-] & ?); congruence].
      * split; [intros Hp; first_chars Hp | intros (? & [= <-] & _ & ?); congruence].
      * split; [|done]. intros _. exists r, body. repeat split; try done.
        intros v Hv%extract_content_Some. by rewrite Hv in Ht.
    + intros He; cbn [error] in He.
      assert (e = lit "Failed to parse API response as JSON.") as -> by congruence.
      clear He. split; [|split; [|split]].
      * split; [intros [t Hp]; first_chars Hp | intros (? & ?); congruence].
      * split; [intros [t Hp]; first_chars Hp | intros (? & [= <-] & ?); congruence].
      * split; [eauto | done].
      * split; [intros Hp; first_chars Hp | intros (? & ? & [= <-] & _ & ? & _); congruence].
  - apply Z.eqb_neq in Hs. intros He; cbn [error] in He.
    assert (e = lit "API error " ++ of_int (status_code r) ++ lit ": " ++ text r)
      as -> by congruence.
    clear He. split; [|split; [|split]].
    + split; [intros [t Hp]; first_chars Hp | intros (? & ?); congruence].
    + split; [eauto|]. intros _. by apply prefix_app_r.
    + split; [intros Hp; first_chars Hp | intros (? & [= <-] & ? & _); congruence].
    + split; [intros Hp; first_chars Hp | intros (? & ? & [= <-] & ? & _); congruence].
Qed.

(** X5. A 200 response whose parsed body is no object, has no ["choices"],
    or has an empty list or a string as ["choices"], is an empty response:
    the failed subscript is caught, nothing is raised. *)
Theorem call_openrouter_malformed_body (r : response) (body : value) :
  posted = Returned r →
  status_code r = 200%Z →
  json r = Some body →
  (∀ d, body ≠ VDict d)
  ∨ (∃ d : gmap str value, body = VDict d ∧
       (d !! lit "choices" = None
        ∨ d !! lit "choices" = Some (VList [])
        ∨ ∃ s, d !! lit "choices" = Some (VStr s))) →
  returned =
    {| ok := false; content := VStr []; raw := body;
       error := Some (lit "Empty response from model.") |}.
Proof.
  intros Hpost Hstatus Hjson Hbody.
  apply (call_openrouter_falsy _ _ _ _ _ _ _ _ _ _ r body Hpost Hstatus Hjson).
  replace (extract_content body) with (@None value); [done|].
  symmetry. apply extract_content_None.
  intros v (d & rest & choice & message & -> & Hd & _).
  destruct Hbody as [Hbody|(d' & [= <-] & [Hc|[Hc|[s Hc]]])].
  - by destruct (Hbody d).
  - congruence.
  - congruence.
  - congruence.
Qed.

(** The error of a failed call is never empty and never ["Unknown error"]. *)
Lemma call_openrouter_failure_error :
  ok returned = false →
  ∃ e, error returned = Some e ∧ e ≠ [] ∧ e ≠ lit "Unknown error".
Proof.
  unfold call_openrouter. destruct posted as [exc|r].
  { intros _. eexists. split; [reflexivity|]. split; intros H; first_chars H. }
  destruct (negb (status_code r =? 200)%Z).
  { intros _. eexists. split; [reflexivity|]. split; intros H; first_chars H. }
  destruct (json r) as [body|].
  - destruct (negb (truthy (default VNone (extract_content body)))); [|done].
    intros _. eexists. split; [reflexivity|]. split; intros H; first_chars H.
  - intros _. eexists. split; [reflexivity|]. split; intros H; first_chars H.
Qed.

End ClientOutcomes.

(** * Further properties of the store *)

Section StoreFrames.

Variable json_dumps : option nat → value → str.
Variable json_loads : str → option value.

Lemma save_user_data_flags r m k (d : filesystem) :
  can_write (save_user_data json_dumps r m k d) = can_write d
  ∧ can_read (save_user_data json_dumps r m k d) = can_read d.
Proof. unfold save_user_data. destruct (can_write d) eqn:Hw; simpl; auto. Qed.

(** X6. [save_user_data] touches nothing but [DATA_FILE]: every other file
    and both permissions stay as they were; and where the file cannot be
    opened for writing the file system is unchanged, so that
    [load_user_data] still returns what it returned before. *)
Theorem save_user_data_frame r m k (d : filesystem) :
  (∀ path : str, path ≠ DATA_FILE →
     files (save_user_data json_dumps r m k d) !! path = files d !! path)
  ∧ can_write (save_user_data json_dumps r m k d) = can_write d
  ∧ can_read (save_user_data json_dumps r m k d) = can_read d
  ∧ (can_write d = false →
     save_user_data json_dumps r m k d = d
     ∧ load_user_data json_loads (save_user_data json_dumps r m k d)
         = load_user_data json_loads d).
Proof.
  split; [|split; [|split]].
  - intros path Hpath. unfold save_user_data.
    destruct (can_write d); [|done]. simpl. by rewrite lookup_insert_ne.
  - apply save_user_data_flags.
  - apply save_user_data_flags.
  - intros Hw. by rewrite save_user_data_denied.
Qed.

(** X7. A second save replaces the first: the file system after two saves
    is the one the second save alone leaves.  No history is kept, and saving
    the same record twice is saving it once. *)
Theorem save_user_data_overwrites r1 m1 k1 r2 m2 k2 (d : filesystem) :
  save_user_data json_dumps r2 m2 k2 (save_user_data json_dumps r1 m1 k1 d)
    = save_user_data json_dumps r2 m2 k2 d.
Proof.
  unfold save_user_data. destruct (can_write d) eqn:Hw; simpl; rewrite ?Hw; [|done].
  simpl. by rewrite insert_insert_eq.
Qed.

(** X8. After two saves [load_user_data] returns the second record, when
    the file can be written and read and the JSON library reads the text of
    the second record back. *)
Theorem load_sees_last_save r1 m1 k1 r2 m2 k2 (d : filesystem) :
  can_write d = true →
  can_read d = true →
  json_loads (json_dumps (Some 2%nat) (user_data_dict r2 m2 k2))
    = Some (user_data_dict r2 m2 k2) →
  load_user_data json_loads
    (save_user_data json_dumps r2 m2 k2 (save_user_data json_dumps r1 m1 k1 d))
    = {| resume_text := VStr r2; misc_criteria := VStr m2; api_key := VStr k2 |}.
Proof.
  intros Hw Hr Hcodec.
  destruct (save_user_data_flags r1 m1 k1 d) as [Hw1 Hr1].
  rewrite Hw in Hw1. rewrite Hr in Hr1.
  destruct (save_user_data_written json_dumps r2 m2 k2 _ Hw1) as [Hfile Hread].
  rewrite Hr1 in Hread.
  by rewrite (load_user_data_object json_loads _ _ _ Hfile Hread Hcodec).
Qed.

(** X9. What else goes wrong inside [load_user_data] ends in the empty
    record too: a file that cannot be read, and a file whose JSON is not an
    object (a list, a string, a number, [null]), where [data.get] raises. *)
Theorem load_user_data_swallows (d : filesystem) :
  (can_read d = false → load_user_data json_loads d = no_user_data)
  ∧ (∀ (contents : str) (v : value),
       files d !! DATA_FILE = Some contents →
       json_loads contents = Some v →
       (∀ obj, v ≠ VDict obj) →
       load_user_data json_loads d = no_user_data).
Proof.
  split.
  - apply load_user_data_unreadable.
  - apply load_user_data_not_object.
Qed.

(** X10. [load_user_data] looks at [DATA_FILE] and at nothing else: two
    file systems that agree on that file and on whether it can be read give
    the same record. *)
Theorem load_user_data_frame (d d' : filesystem) :
  files d !! DATA_FILE = files d' !! DATA_FILE →
  can_read d = can_read d' →
  load_user_data json_loads d = load_user_data json_loads d'.
Proof.
  unfold load_user_data, load_user_data_try. by intros -> ->.
Qed.

End StoreFrames.

(** * Further properties of the form *)

Lemma session_emit e w : session_state (emit e w) = session_state w.
Proof. done. Qed.

Lemma session_with_fs f w : session_state (with_fs f w) = session_state w.
Proof. done. Qed.

Lemma session_seed_unfold (key : str) (v : value) (w : world) :
  session_state (seed key v w) =
    match session_state w !! key with
    | Some _ => session_state w
    | None => <[key := v]> (session_state w)
    end.
Proof. unfold seed. by destruct (session_state w !! key). Qed.

(** [seed] fills a key that is missing and leaves every other one alone. *)
Lemma session_seed (key key' : str) (v : value) (w : world) :
  session_state (seed key v w) !! key' =
    if decide (key = key') then Some (default v (session_state w !! key))
    else session_state w !! key'.
Proof.
  unfold seed. destruct (session_state w !! key) as [x|] eqn:E; simpl.
  - case_decide; [by subst|done].
  - case_decide; [subst; by rewrite lookup_insert_eq|by rewrite lookup_insert_ne].
Qed.

Section FormRuns.

Variable json_dumps : option nat → value → str.
Variable json_loads : str → option value.
Variable textwrap_dedent : str → str.
Variable requests_post : request → post_outcome.

Local Abbreviation run := (main json_dumps json_loads textwrap_dedent requests_post).
Local Abbreviation events :=
  (run_events json_dumps json_loads textwrap_dedent requests_post).
Local Abbreviation model_of i :=
  (if nonempty (strip (w_model i)) then strip (w_model i) else DEFAULT_MODEL).
Local Abbreviation request_of i :=
  (openrouter_request json_dumps textwrap_dedent (w_api_key i) (w_resume_text i)
     (w_job_description i) (w_misc_criteria i) (model_of i) (w_temperature i) 60).
Local Abbreviation result_of i :=
  (call_openrouter json_dumps textwrap_dedent requests_post (w_api_key i)
     (w_resume_text i) (w_job_description i) (w_misc_criteria i) (model_of i)
     (w_temperature i) 60).
Local Abbreviation persisted w := (load_user_data json_loads (fs w)).

(** Every run is of one of three kinds. *)
Lemma run_kinds i :
  w_submit i = false
  ∨ (w_submit i = true
     ∧ (strip (w_resume_text i) = [] ∨ strip (w_job_description i) = []
        ∨ w_api_key i = []))
  ∨ (w_submit i = true ∧ strip (w_resume_text i) ≠ []
     ∧ strip (w_job_description i) ≠ [] ∧ w_api_key i ≠ []).
Proof.
  destruct (w_submit i); [|by left]. right.
  destruct (decide (strip (w_resume_text i) = [])); [left; auto|].
  destruct (decide (strip (w_job_description i) = [])); [left; auto|].
  destruct (decide (w_api_key i = [])); [left; auto|].
  by right.
Qed.

(** The session state after a run: the three keys seeded, nothing else. *)
Lemma session_main i w :
  session_state (run i w) =
    session_state
      (seed (lit "api_key") (api_key (persisted w))
         (seed (lit "misc_criteria") (misc_criteria (persisted w))
            (seed (lit "resume_text") (resume_text (persisted w)) w))).
Proof.
  unfold main. cbv zeta. rewrite !fs_emit.
  repeat match goal with
         | |- context [if ?b then _ else _] => destruct b
         end;
    repeat (rewrite session_emit || rewrite session_with_fs
            || rewrite session_seed_unfold);
    reflexivity.
Qed.

(** X11. A run in which the button was not pressed posts nothing, saves
    nothing, shows no error and leaves the files as they were. *)
Theorem main_without_submit i w :
  w_submit i = false →
  posts (events i w) = []
  ∧ saves (events i w) = []
  ∧ errors (events i w) = []
  ∧ fs (run i w) = fs w.
Proof.
  intros Hsubmit.
  destruct (run_not_submitted json_dumps json_loads textwrap_dedent requests_post
              i w Hsubmit) as [-> ->].
  destruct (preamble_quiet i) as (? & ? & ?). done.
Qed.


(** X13. What a failed call reports is what the user reads: after a call
    with [ok=False] the one error shown is the result's own error text; and
    no run ever shows ["Unknown error"], the fallback of the source. *)
Theorem main_shows_client_error i w :
  (lit "Unknown error" ∉ errors (events i w))
  ∧ (w_submit i = true → strip (w_resume_text i) ≠ [] →
     strip (w_job_description i) ≠ [] → w_api_key i ≠ [] →
     ok (result_of i) = false →
     ∃ e, error (result_of i) = Some e ∧ errors (events i w) = [e]).
Proof.
  destruct (preamble_quiet i) as (Hp & Hs & He).
  assert (ok (result_of i) = false →
          ∃ e, error (result_of i) = Some e ∧ nonempty e = true
               ∧ e ≠ lit "Unknown error") as Hfail.
  { intros Hok.
    destruct (call_openrouter_failure_error json_dumps textwrap_dedent requests_post
                _ _ _ _ _ _ _ Hok) as (e & He1 & He2 & He3).
    exists e. by rewrite nonempty_true. }
  split.
  - destruct (run_kinds i) as [Hsubmit|[[Hsubmit Hmissing]|(Hsubmit & Hr & Hj & Hk)]].
    + destruct (run_not_submitted json_dumps json_loads textwrap_dedent requests_post
                  i w Hsubmit) as [-> _].
      rewrite He. apply not_elem_of_nil.
    + destruct (run_rejected json_dumps json_loads textwrap_dedent requests_post
                  i w Hsubmit Hmissing) as [-> _].
      unfold errors in *. rewrite omap_app, He. simpl.
      intros Hin%list_elem_of_singleton.
      repeat match goal with
             | H : context [if ?b then _ else _] |- _ => destruct b
             end; first_chars Hin.
    + destruct (run_accepted json_dumps json_loads textwrap_dedent requests_post
                  i w Hsubmit Hr Hj Hk) as [-> _].
      unfold errors in *. rewrite !omap_app, He.
      destruct (ok (result_of i)) eqn:Hok; simpl; [apply not_elem_of_nil|].
      destruct (Hfail eq_refl) as (e & -> & -> & Hne).
      intros Hin%list_elem_of_singleton. by apply Hne.
  - intros Hsubmit Hr Hj Hk Hok.
    destruct (run_accepted json_dumps json_loads textwrap_dedent requests_post
                i w Hsubmit Hr Hj Hk) as [-> _].
    destruct (Hfail Hok) as (e & Herr & Hne & _). exists e. split; [done|].
    unfold errors in *. rewrite !omap_app, He, Hok. simpl. by rewrite Herr, Hne.
Qed.

(** X14. A run fills each of the three session keys that is missing with
    what [load_user_data] returns, keeps the value of a key that is there,
    and touches no other key. *)
Theorem main_seeds_session i w :
  session_state (run i w) !! lit "resume_text"
    = Some (default (resume_text (persisted w)) (session_state w !! lit "resume_text"))
  ∧ session_state (run i w) !! lit "misc_criteria"
    = Some (default (misc_criteria (persisted w))
              (session_state w !! lit "misc_criteria"))
  ∧ session_state (run i w) !! lit "api_key"
    = Some (default (api_key (persisted w)) (session_state w !! lit "api_key"))
  ∧ (∀ key : str,
       key ≠ lit "resume_text" → key ≠ lit "misc_criteria" → key ≠ lit "api_key" →
       session_state (run i w) !! key = session_state w !! key).
Proof.
  rewrite session_main. split; [|split; [|split]].
  - rewrite !session_seed. by repeat (case_decide; try done).
  - rewrite !session_seed. by repeat (case_decide; try done).
  - rewrite !session_seed. by repeat (case_decide; try done).
  - intros key H1 H2 H3. rewrite !session_seed.
    by repeat (case_decide; try done).
Qed.

(** X15. The request a run posts goes to [OPENROUTER_API_URL] with a
    timeout of 60 seconds, the key as bearer token and a JSON content type;
    it is built for the model typed in, stripped, or for [DEFAULT_MODEL]
    when that is blank. *)
Theorem main_request i w (req : request) :
  req ∈ posts (events i w) →
  url req = OPENROUTER_API_URL
  ∧ timeout req = 60%Z
  ∧ headers req !! lit "Authorization" = Some (lit "Bearer " ++ w_api_key i)
  ∧ headers req !! lit "Content-Type" = Some (lit "application/json")
  ∧ (strip (w_model i) = [] →
     req = openrouter_request json_dumps textwrap_dedent (w_api_key i)
             (w_resume_text i) (w_job_description i) (w_misc_criteria i)
             DEFAULT_MODEL (w_temperature i) 60)
  ∧ (strip (w_model i) ≠ [] →
     req = openrouter_request json_dumps textwrap_dedent (w_api_key i)
             (w_resume_text i) (w_job_description i) (w_misc_criteria i)
             (strip (w_model i)) (w_temperature i) 60).
Proof.
  intros Hreq.
  assert (req = request_of i) as ->.
  { destruct (preamble_quiet i) as (Hp & Hs & He).
    destruct (run_kinds i) as [Hsubmit|[[Hsubmit Hmissing]|(Hsubmit & Hr & Hj & Hk)]].
    - destruct (run_not_submitted json_dumps json_loads textwrap_dedent requests_post
                  i w Hsubmit) as [E _].
      rewrite E, Hp in Hreq. by apply elem_of_nil in Hreq.
    - destruct (run_rejected json_dumps json_loads textwrap_dedent requests_post
                  i w Hsubmit Hmissing) as [E _].
      rewrite E in Hreq. unfold posts in *. rewrite omap_app, Hp in Hreq.
      by apply elem_of_nil in Hreq.
    - destruct (run_accepted json_dumps json_loads textwrap_dedent requests_post
                  i w Hsubmit Hr Hj Hk) as [E _].
      rewrite E in Hreq. unfold posts in *. rewrite !omap_app, Hp in Hreq.
      destruct (ok (result_of i)); simpl in Hreq;
        by apply list_elem_of_singleton in Hreq. }
  split; [done|]. split; [done|].
  split; [unfold openrouter_request; cbn [headers]; apply lookup_insert_eq|].
  split.
  { unfold openrouter_request; cbn [headers].
    rewrite lookup_insert_ne by (intros H; first_chars H). apply lookup_insert_eq. }
  split.
  - by intros ->.
  - by intros ->%nonempty_true.
Qed.


(** X17. The warning about the API key is shown in every run in which the
    key is empty, whether or not the button was pressed, and in no other. *)
Theorem main_warning i w :
  st_warning (lit "Please enter your OpenRouter API key to use the application.")
    ∈ events i w
  ↔ w_api_key i = [].
Proof.
  assert (∃ rest, events i w = preamble i ++ rest
                  ∧ ∀ s, st_warning s ∉ rest) as (rest & -> & Hrest).
  { destruct (run_kinds i) as [Hsubmit|[[Hsubmit Hmissing]|(Hsubmit & Hr & Hj & Hk)]].
    - destruct (run_not_submitted json_dumps json_loads textwrap_dedent requests_post
                  i w Hsubmit) as [-> _].
      exists []. split; [by rewrite app_nil_r|]. intros s. apply not_elem_of_nil.
    - destruct (run_rejected json_dumps json_loads textwrap_dedent requests_post
                  i w Hsubmit Hmissing) as [-> _].
      eexists. split; [reflexivity|]. intros s Hin.
      by apply list_elem_of_singleton in Hin.
    - destruct (run_accepted json_dumps json_loads textwrap_dedent requests_post
                  i w Hsubmit Hr Hj Hk) as [-> _].
      eexists. split; [reflexivity|]. intros s Hin.
      destruct (ok (result_of i)); not_listed Hin. }
  rewrite elem_of_app. unfold preamble. rewrite <- nonempty_false.
  destruct (nonempty (w_api_key i)); split.
  - intros [Hin|Hin]; [not_listed Hin|by destruct (Hrest _ Hin)].
  - done.
  - done.
  - intros _. left. simpl. rewrite !elem_of_cons. auto.
Qed.

End FormRuns.

(** * The further properties on concrete runs *)

Import Cases.

(** The connection times out. *)
Lemma call_openrouter_network_error_run :
  call (fails (lit "timed out")) =
    {| ok := false; content := VStr []; raw := VDict ∅;
       error := Some (lit "Network error: timed out") |}.
Proof.
  unfold call.
  apply (call_openrouter_network_error json_dumps textwrap_dedent
           (fails (lit "timed out")) key resume job criteria DEFAULT_MODEL
           point_two 60 (lit "timed out")).
  reflexivity.
Defined.

(** A gateway answers 200 with a page of HTML. *)
Lemma call_openrouter_unparseable_run :
  ok (call (answers garbled)) = false
  ∧ content (call (answers garbled)) = VStr []
  ∧ error (call (answers garbled)) = Some (lit "Failed to parse API response as JSON.")
  ∧ raw (call (answers garbled)) =
      VDict (<[lit "text" := VStr (lit "<html>Bad gateway</html>")]> ∅).
Proof.
  unfold call.
  apply (call_openrouter_unparseable json_dumps textwrap_dedent (answers garbled)
           key resume job criteria DEFAULT_MODEL point_two 60 garbled).
  - reflexivity.
  - reflexivity.
  - reflexivity.
Defined.

(** The message of a timeout starts as a network error does, and is none of
    the other three. *)
Lemma call_openrouter_error_kind_run :
  (lit "Network error: " `prefix_of` lit "Network error: timed out"
   ↔ ∃ exc, fails (lit "timed out") scenario_request = Raised exc)
  ∧ (lit "API error " `prefix_of` lit "Network error: timed out"
     ↔ ∃ r, fails (lit "timed out") scenario_request = Returned r
            ∧ status_code r ≠ 200%Z).
Proof.
  destruct (call_openrouter_error_kind json_dumps textwrap_dedent
              (fails (lit "timed out")) key resume job criteria DEFAULT_MODEL
              point_two 60 (lit "Network error: timed out") eq_refl)
    as (Hnetwork & Hapi & _).
  split; [exact Hnetwork | exact Hapi].
Defined.

(** The server answers 200 with an empty JSON list. *)
Lemma call_openrouter_malformed_body_run :
  call (answers (answer (lit "[]") (VList []))) =
    {| ok := false; content := VStr []; raw := VList [];
       error := Some (lit "Empty response from model.") |}.
Proof.
  unfold call.
  apply (call_openrouter_malformed_body json_dumps textwrap_dedent
           (answers (answer (lit "[]") (VList [])))
           key resume job criteria DEFAULT_MODEL point_two 60
           (answer (lit "[]") (VList []))).
  - reflexivity.
  - reflexivity.
  - reflexivity.
  - left. discriminate.
Defined.

(** Two saves in a row: the second record is the one that is loaded. *)
Lemma load_sees_last_save_run :
  load_user_data json_loads
    (save_user_data json_dumps other_resume [] unicode
       (save_user_data json_dumps resume criteria key some_files))
    = {| resume_text := VStr other_resume; misc_criteria := VStr [];
         api_key := VStr unicode |}.
Proof.
  apply (load_sees_last_save json_dumps json_loads resume criteria key
           other_resume [] unicode some_files).
  - reflexivity.
  - reflexivity.
  - apply sample_codec_round_trip; reflexivity.
Defined.

(** Taking the write permission away changes nothing for [load_user_data]. *)
Lemma load_user_data_frame_run :
  load_user_data json_loads
    (read_only (save_user_data json_dumps resume criteria key some_files))
    = load_user_data json_loads
        (save_user_data json_dumps resume criteria key some_files).
Proof.
  apply (load_user_data_frame json_loads).
  - reflexivity.
  - reflexivity.
Defined.

(** The form filled in, the button not pressed. *)
Lemma main_without_submit_run :
  posts (events (answers (reply (encode_str verdict) (VStr verdict)))
           (idle resume job criteria key) (start some_files)) = []
  ∧ saves (events (answers (reply (encode_str verdict) (VStr verdict)))
             (idle resume job criteria key) (start some_files)) = []
  ∧ errors (events (answers (reply (encode_str verdict) (VStr verdict)))
              (idle resume job criteria key) (start some_files)) = []
  ∧ fs (run (answers (reply (encode_str verdict) (VStr verdict)))
          (idle resume job criteria key) (start some_files)) = some_files.
Proof.
  apply (main_without_submit json_dumps json_loads textwrap_dedent
           (answers (reply (encode_str verdict) (VStr verdict)))
           (idle resume job criteria key) (start some_files)).
  reflexivity.
Defined.

(** Two blanks typed in as the model: the request is built for the default
    model and carries the key as bearer token. *)
Lemma main_request_run :
  headers scenario_request !! lit "Authorization"
    = Some (lit "Bearer sk-or-v1-sample")
  ∧ timeout scenario_request = 60%Z.
Proof.
  destruct (main_request json_dumps json_loads textwrap_dedent
              (answers (reply (encode_str verdict) (VStr verdict)))
              (form_with_model (lit "  ")) (start some_files) scenario_request)
    as (_ & Htimeout & Hauth & _).
  - destruct (run_accepted json_dumps json_loads textwrap_dedent
                (answers (reply (encode_str verdict) (VStr verdict)))
                (form_with_model (lit "  ")) (start some_files) eq_refl) as [E _].
    + vm_compute. discriminate.
    + vm_compute. discriminate.
    + discriminate.
    + rewrite E. unfold posts. rewrite !omap_app. simpl.
      apply list_elem_of_singleton. reflexivity.
  - split; [exact Hauth | exact Htimeout].
Defined.

